(** * Tape drive status panel and running-tasks widget of the backup server GUI

    A shallow embedding of [www/tape/DriveStatus.js] (controller of
    [PBS.TapeManagement.DriveStatus], its toolbar, and
    [PBS.TapeManagement.DriveInfoPanel.initComponent]) and of the
    [render_status] renderer of [PBS.RunningTasks].

    JS event handlers are modelled in a small state/writer/exception monad:
    a handler reads and updates the panel (view model and component
    references), emits the UI side effects it performs, and either returns
    or throws; mutations done before a throw persist, as in JS. *)

From Stdlib Require Import String Ascii List Bool ZArith Lia.
Import ListNotations.
Open Scope string_scope.
Open Scope list_scope.

(** ** JS values *)

(** Truthiness of a nullable string ([!!v]): [null]/[undefined] and [""]
    are falsy, every other string is truthy. *)
Definition truthy (v : option string) : bool :=
  match v with
  | Some s => negb (String.eqb s "")
  | None => false
  end.

(** [v || ""] for a nullable string. *)
Definition or_empty (v : option string) : string :=
  match v with
  | Some s => if String.eqb s "" then "" else s
  | None => ""
  end.

(** [Array.prototype.indexOf] with strict equality on strings. *)
Fixpoint indexOf_from (l : list string) (x : string) (i : Z) : Z :=
  match l with
  | [] => (-1)%Z
  | y :: l' => if String.eqb y x then i else indexOf_from l' x (i + 1)%Z
  end.

Definition indexOf (l : list string) (x : string) : Z := indexOf_from l x 0%Z.

(** The characters matched by the regular-expression class [\s] that fit in
    a Latin-1 code unit: TAB, LF, VT, FF, CR, SPACE and NBSP. *)
Definition is_ws (c : ascii) : bool :=
  match nat_of_ascii c with
  | 9 | 10 | 11 | 12 | 13 | 32 | 160 => true
  | _ => false
  end.

(** [String.prototype.split] with the separator [/\s+|\s+/].  Both
    alternatives are [\s+], so at any position the separator matches exactly
    the maximal run of whitespace starting there, and never the empty string.
    ECMAScript's SplitMatcher loop then cuts the input at each maximal
    whitespace run; a leading (trailing) run yields a leading (trailing)
    empty piece and [""] splits to [[""]].  The fold runs right to left:
    the boolean says whether the remaining input starts with whitespace, the
    head of the list is the piece currently being built. *)
Fixpoint ws_split (s : list ascii) : bool * list (list ascii) :=
  match s with
  | [] => (false, [[]])
  | c :: s' =>
      let '(w, toks) := ws_split s' in
      if is_ws c then
        if w then (true, toks) else (true, [] :: toks)
      else
        match toks with
        | t :: ts => (false, (c :: t) :: ts)
        | [] => (false, [[c]])
        end
  end.

Definition split_ws (s : string) : list string :=
  map string_of_list_ascii (snd (ws_split (list_ascii_of_string s))).

(** ** Data model *)

(** A record of the shared tape-device store ([tapestore] of the navigation
    tree): identity [name] and the nullable task identifier [state]. *)
Record device := mkDevice { dev_name : string; dev_state : option string }.

(** [store.findRecord('name', value, 0, false, true, true)]: the first
    record whose [name] equals [value] exactly (no substring match, case
    sensitive), or [null]. *)
Fixpoint findRecord (recs : list device) (value : string) : option device :=
  match recs with
  | [] => None
  | r :: rs => if String.eqb (dev_name r) value then Some r else findRecord rs value
  end.

(** The view model of [PBS.TapeManagement.DriveStatus]. *)
Record viewmodel := mkVM { online : bool; busy : bool; loaded : bool }.

(** [viewModel: { data: { online: false, busy: true, loaded: false } }] *)
Definition initial_vm : viewmodel := mkVM false true false.

(** Deferred UI calls scheduled with [setTimeout]; the target is the result
    of [me.lookup('statusgrid')] ([None] is [null]). *)
Inductive uiaction :=
| Mask (target : option string) (msg : string)
| Unmask (target : option string).

Inductive window_kind := TaskProgress | TaskViewer | LabelMediaWindow.

(** The callbacks a task window is created with. *)
Inductive callback :=
| CbReload.   (* taskDone: function() { me.reload(); } *)

Inductive effect :=
| ETimeout (ms : nat) (a : uiaction)              (* setTimeout(fn, ms) *)
| ERstoreLoad (grid : string)                      (* grid.rstore.load() *)
| ERemoveAll (grid : string)                       (* grid.getStore().removeAll() *)
| ERequest (drive cmd : string) (meth : option string) (* driveCommand request *)
| EShowError (msg : string)                        (* failed request message *)
| EShowWindow (k : window_kind) (arg : string)     (* Ext.create(...).show() *)
| EShowResult (cmd : string) (data : string).      (* PBS.Utils.show...Window *)

(** A task window created by a command callback: the [upid] it watches and
    its [taskDone] callback. *)
Record task_window := mkTW { tw_kind : window_kind; tw_upid : string; tw_done : callback }.

(** The panel: the configured [drive], the view model, the component
    references of the view (reference name and the rows of its store), and
    the task windows opened by its commands. *)
Record panel := mkPanel {
  drive : string;
  vm : viewmodel;
  refs : list (string * list string);
  windows : list task_window
}.

(** ** Handler monad: state, emitted effects, JS exceptions *)

Inductive exn :=
| TypeError (msg : string)
| Thrown (s : string).         (* throw "..." *)

Inductive outcome (A : Type) :=
| Ok (a : A)
| Throw (e : exn).
Arguments Ok {A} a.
Arguments Throw {A} e.

Definition M (A : Type) := panel -> panel * list effect * outcome A.

Definition ret {A} (a : A) : M A := fun st => (st, [], Ok a).

Definition bind {A B} (m : M A) (k : A -> M B) : M B :=
  fun st =>
    match m st with
    | (st1, e1, Ok a) =>
        match k a st1 with
        | (st2, e2, r) => (st2, e1 ++ e2, r)
        end
    | (st1, e1, Throw x) => (st1, e1, Throw x)
    end.

Notation "x <- m ;; k" := (bind m (fun x => k))
  (at level 61, m at next level, right associativity).
Notation "m ;;; k" := (bind m (fun _ => k))
  (at level 61, right associativity).

Definition throw {A} (e : exn) : M A := fun st => (st, [], Throw e).
Definition emit (e : effect) : M unit := fun st => (st, [e], Ok tt).
Definition get : M panel := fun st => (st, [], Ok st).
Definition modify (f : panel -> panel) : M unit := fun st => (f st, [], Ok tt).

Definition set_vm (f : viewmodel -> viewmodel) : M unit :=
  modify (fun st => mkPanel (drive st) (f (vm st)) (refs st) (windows st)).

(** [vm.set('online', b)], [vm.set('busy', b)], [vm.set('loaded', b)] *)
Definition vm_set_online (b : bool) : M unit :=
  set_vm (fun v => mkVM b (busy v) (loaded v)).
Definition vm_set_busy (b : bool) : M unit :=
  set_vm (fun v => mkVM (online v) b (loaded v)).
Definition vm_set_loaded (b : bool) : M unit :=
  set_vm (fun v => mkVM (online v) (busy v) b).

(** Whether the view declares a component with reference [r]. *)
Definition has_ref (st : panel) (r : string) : bool :=
  existsb (fun p => String.eqb (fst p) r) (refs st).

(** [me.lookup(ref)]: the reference if the view declares it, else [null]. *)
Definition lookup (r : string) : M (option string) :=
  fun st => (st, [], Ok (if has_ref st r then Some r else None)).

Definition null_deref (prop : string) : exn :=
  TypeError ("Cannot read properties of null (reading '" ++ prop ++ "')")%string.

(** [grid.getStore().removeAll()] *)
Definition removeAll (r : string) : M unit :=
  modify (fun st =>
    mkPanel (drive st) (vm st)
      (map (fun p => if String.eqb (fst p) r then (fst p, []) else p) (refs st))
      (windows st)) ;;;
  emit (ERemoveAll r).

(** ** Controller of [PBS.TapeManagement.DriveStatus] *)

(** [reload: me.lookup('statusgrid').rstore.load()] *)
Definition reload : M unit :=
  g <- lookup "statusgrid" ;;
  match g with
  | Some r => emit (ERstoreLoad r)
  | None => throw (null_deref "rstore")
  end.

(** [statusgrid.getObjectValue(key)]: the value of the status row [key] of
    the snapshot just loaded into the grid, [undefined] when absent. *)
Fixpoint getObjectValue (rows : list (string * string)) (key : string) : option string :=
  match rows with
  | [] => None
  | (k, v) :: rs => if String.eqb k key then Some v else getObjectValue rs key
  end.

(** [onLoad], listener of the status grid's [rstore] 'load' event; [rows]
    is the status snapshot that was loaded. *)
Definition onLoad (rows : list (string * string)) : M unit :=
  g <- lookup "statusgrid" ;;
  match g with
  | None => throw (null_deref "getObjectValue")
  | Some _ =>
      let statusFlags := split_ws (or_empty (getObjectValue rows "status")) in
      let on := negb (Z.eqb (indexOf statusFlags "ONLINE") (-1)%Z) in
      vm_set_online on ;;;
      if negb on then
        c <- lookup "cartridgegrid" ;;
        match c with
        | Some r => removeAll r
        | None => throw (null_deref "getStore")
        end
      else ret tt
  end.

(** [onStateLoad], listener of the shared tape store's 'load' event (and
    called from [init] when that store is already loaded). *)
Definition onStateLoad (store : list device) : M unit :=
  st <- get ;;
  match findRecord store (drive st) with
  | None => throw (null_deref "data")
  | Some driveRecord =>
      let b := truthy (dev_state driveRecord) in
      vm_set_busy b ;;;
      statusgrid <- lookup "statusgrid" ;;
      st' <- get ;;
      if negb (loaded (vm st')) then
        if b then
          emit (ETimeout 10 (Mask statusgrid "Drive is busy"))
        else
          emit (ETimeout 10 (Unmask statusgrid)) ;;;
          reload ;;;
          vm_set_loaded true
      else ret tt
  end.

(** ** Commands *)

(** Backend answer to a command request: the payload [response.result.data]
    (a task identifier for task-producing commands) or a failure. *)
Inductive response :=
| RespOk (data : string)
| RespFail (msg : string).

(** Modelled from the spec: [PBS.Utils.driveCommand] (www/Utils.js, not
    part of the excerpt) sends the command request for the drive; a failed
    request surfaces as an error message, no retry and no callback; a
    successful one calls the [success] callback with the response. *)
Definition driveCommand (drv cmd : string) (meth : option string)
    (success : string -> M unit) (resp : response) : M unit :=
  emit (ERequest drv cmd meth) ;;;
  match resp with
  | RespOk data => success data
  | RespFail msg => emit (EShowError msg)
  end.

(** [Ext.create('Proxmox.window.TaskProgress' / 'TaskViewer', { upid,
    taskDone }).show()]: the window becomes a task handle watching [upid]. *)
Definition open_task_window (k : window_kind) (upid : string) (cb : callback) : M unit :=
  modify (fun st => mkPanel (drive st) (vm st) (refs st) (windows st ++ [mkTW k upid cb])) ;;;
  emit (EShowWindow k upid).

Definition labelMedia : M unit :=
  view <- get ;;
  emit (EShowWindow LabelMediaWindow (drive view)).

Definition ejectMedia (resp : response) : M unit :=
  view <- get ;;
  driveCommand (drive view) "eject-media" (Some "POST")
    (fun data => open_task_window TaskProgress data CbReload) resp.

Definition catalog (resp : response) : M unit :=
  view <- get ;;
  driveCommand (drive view) "catalog" (Some "POST")
    (fun data => open_task_window TaskViewer data CbReload) resp.

(** The [PBS.Utils.show...Window] helpers only display the result payload. *)
Definition readLabel (resp : response) : M unit :=
  view <- get ;;
  driveCommand (drive view) "read-label" None
    (fun data => emit (EShowResult "read-label" data)) resp.

Definition volumeStatistics (resp : response) : M unit :=
  view <- get ;;
  driveCommand (drive view) "volume-statistics" None
    (fun data => emit (EShowResult "volume-statistics" data)) resp.

Definition cartridgeMemory (resp : response) : M unit :=
  view <- get ;;
  driveCommand (drive view) "cartridge-memory" None
    (fun data => emit (EShowResult "cartridge-memory" data)) resp.

Definition run_callback (cb : callback) : M unit :=
  match cb with
  | CbReload => reload
  end.

(** Completion event delivered to the [i]-th task window: the window calls
    its [taskDone] callback. *)
Definition taskDone (i : nat) : M unit :=
  st <- get ;;
  match nth_error (windows st) i with
  | Some w => run_callback (tw_done w)
  | None => ret tt
  end.

(** ** View structure and toolbar *)

(** Component tree of [items]: xtype, optional [reference], children. *)
#[local] Set Warnings "-register-all".
Inductive item := Item (xtype : string) (reference : option string) (children : list item).

Fixpoint item_refs (i : item) : list string :=
  match i with
  | Item _ r ch =>
      (match r with Some x => [x] | None => [] end) ++
      (fix go (l : list item) : list string :=
         match l with
         | [] => []
         | c :: cs => item_refs c ++ go cs
         end) ch
  end.

(** [items] of [PBS.TapeManagement.DriveStatus], with the children of
    [pbsDriveInfoPanel]. *)
Definition drive_status_items : list item :=
  [Item "container" None
     [Item "pbsDriveInfoPanel" None
        [Item "pmxInfoWidget" None [];
         Item "pmxInfoWidget" None [];
         Item "pmxInfoWidget" None [];
         Item "pmxInfoWidget" None [];
         Item "pmxInfoWidget" None [];
         Item "pmxInfoWidget" (Some "statewidget") []];
      Item "pbsDriveStatusGrid" (Some "statusgrid") []]].

Definition view_refs : list string := flat_map item_refs drive_status_items.

(** A freshly constructed panel for drive [d]. *)
Definition init_panel (d : string) : panel :=
  mkPanel d initial_vm (map (fun r => (r, [])) view_refs) [].

(** [bind: { disabled: '{busy}' }] and [bind: { disabled: '{!online}' }] *)
Inductive bind_expr := BindBusy | BindNotOnline.

Record button := mkButton { btn_text : string; btn_handler : string; btn_disabled : bind_expr }.

Definition tbar : list button :=
  [mkButton "Reload" "reload" BindBusy;
   mkButton "Label Media" "labelMedia" BindNotOnline;
   mkButton "Eject" "ejectMedia" BindNotOnline;
   mkButton "Catalog" "catalog" BindNotOnline;
   mkButton "Read Label" "readLabel" BindNotOnline;
   mkButton "Volume Statistics" "volumeStatistics" BindNotOnline;
   mkButton "Cartridge Memory" "cartridgeMemory" BindNotOnline].

Definition eval_bind (v : viewmodel) (b : bind_expr) : bool :=
  match b with
  | BindBusy => busy v
  | BindNotOnline => negb (online v)
  end.

Definition button_enabled (v : viewmodel) (b : button) : bool :=
  negb (eval_bind v (btn_disabled b)).

(** ** [PBS.RunningTasks] controller: [render_status] *)

Definition dquote : string := String (ascii_of_nat 34) EmptyString.

Definition render_status (value : string) : string :=
  let cls :=
    if String.eqb value "OK" then "check-circle good"
    else if String.prefix "WARNINGS:" value then "exclamation-circle warning"
    else if String.eqb value "unknown" then "question-circle faded"
    else "times-circle critical" in
  ("<i class=" ++ dquote ++ "fa fa-" ++ cls ++ dquote ++ "></i>")%string.

(** ** Event sequences of the shared device store *)

(** The panel observes a sequence of store snapshots; each 'load' event runs
    [onStateLoad] to its end or to an exception, and the next event starts
    from the resulting panel.  Returns the final panel and the effects of
    each event. *)
Fixpoint run_state_events (evs : list (list device)) (st : panel)
    : panel * list (list effect) :=
  match evs with
  | [] => (st, [])
  | e :: es =>
      match onStateLoad e st with
      | (st1, eff, _) =>
          let '(stf, tr) := run_state_events es st1 in (stf, eff :: tr)
      end
  end.

(** Whether a snapshot shows drive [d] present and idle. *)
Definition idle_in (d : string) (snap : list device) : bool :=
  match findRecord snap d with
  | Some r => negb (truthy (dev_state r))
  | None => false
  end.

Fixpoint first_idle_from (d : string) (evs : list (list device)) (i : nat) : option nat :=
  match evs with
  | [] => None
  | e :: es => if idle_in d e then Some i else first_idle_from d es (S i)
  end.

Definition first_idle (d : string) (evs : list (list device)) : option nat :=
  first_idle_from d evs 0.

Definition is_reload (e : effect) : bool :=
  match e with ERstoreLoad _ => true | _ => false end.

Definition is_unmask (e : effect) : bool :=
  match e with ETimeout _ (Unmask _) => true | _ => false end.

Definition count_eff (p : effect -> bool) (l : list effect) : nat :=
  length (filter p l).

(** ** [PBS.TapeManagement.DriveInfoPanel]: [updateData] and [clickState] *)

(** The info panel: its configured [drive], the record bound to the view
    model's [drive] ([{}] at construction, so no [state]), and whether the
    state widget's element carries the [info-pointer] class. *)
Record info_panel := mkInfo {
  ip_drive : string;
  ip_record : option device;
  ip_pointer : bool
}.

Inductive info_effect :=
| IRemoveClick        (* stateEl.removeListener('click', me.clickState) *)
| IOnClick            (* stateEl.on('click', me.clickState, me) *)
| IAddCls             (* stateEl.addCls('info-pointer') *)
| IRemoveCls          (* stateEl.removeCls('info-pointer') *)
| INotify             (* vm.notify() *)
| IOpenTaskViewer (upid : string).

(** The state widget as [updateData] finds it.  Before [callParent] the
    panel's items are not created, so looking the widget up with
    [me.down(...)] and calling [getEl()] on the result fails with a
    TypeError; once created, the widget's [getEl()] is [undefined] until it
    is rendered; after rendering it returns the element. *)
Inductive widget_state := WNotCreated | WUnrendered | WRendered.

(** The TypeError of the lookup before the items exist.  Its exact text
    comes from the ExtJS internals reached by the lookup; no property below
    depends on it. *)
Definition state_widget_lookup_error : string :=
  "state widget lookup before the panel's items exist".

(** [updateData(store)]; [store] is [None] when no store is passed.
    [vm.set('drive', record.data)] happens before the state widget is
    looked up, so the record stays bound when that lookup throws. *)
Definition updateData (w : widget_state) (store : option (list device)) (p : info_panel)
    : info_panel * list info_effect * outcome unit :=
  match store with
  | None => (p, [], Ok tt)
  | Some recs =>
      match findRecord recs (ip_drive p) with
      | None => (p, [], Ok tt)
      | Some record =>
          let p1 := mkInfo (ip_drive p) (Some record) (ip_pointer p) in
          match w with
          | WNotCreated => (p1, [], Throw (TypeError state_widget_lookup_error))
          | WUnrendered =>
              (p1, [], Throw (TypeError "Cannot read properties of undefined (reading 'removeListener')"))
          | WRendered =>
              if truthy (dev_state record) then
                (mkInfo (ip_drive p) (Some record) true,
                 [IRemoveClick; IOnClick; IAddCls; INotify], Ok tt)
              else
                (mkInfo (ip_drive p) (Some record) false,
                 [IRemoveClick; IRemoveCls; INotify], Ok tt)
          end
      end
  end.

(** [clickState(e, t)]: [rightAligned] is
    [t.classList.contains('right-aligned')]. *)
Definition clickState (rightAligned : bool) (p : info_panel) : list info_effect :=
  if rightAligned then
    let upid := match ip_record p with Some r => dev_state r | None => None end in
    match upid with
    | Some u =>
        if negb (truthy upid) || negb (String.prefix "UPID" u) then []
        else [IOpenTaskViewer u]
    | None => []
    end
  else [].

(** ** [PBS.TapeManagement.DriveInfoPanel.initComponent] *)

Inductive init_step :=
| MonLoad          (* me.mon(tapeStore, 'load', me.updateData, me) *)
| UpdateDataCall   (* me.updateData(tapeStore) *)
| CallParent.      (* me.callParent() *)

(** [drv] is [me.drive] ([None] when not given); [tapeStoreLoaded] is
    [tapeStore.isLoaded()] and [tapeStore] its records.  [updateData] runs
    before [callParent], with the panel's view model [drive] still [{}] and
    its items not yet created.  The steps performed and whether it
    throws. *)
Definition initComponent (drv : option string) (tapeStoreLoaded : bool)
    (tapeStore : list device) : list init_step * outcome unit :=
  if negb (truthy drv) then ([], Throw (Thrown "no drive given"))
  else if tapeStoreLoaded then
    match updateData WNotCreated (Some tapeStore) (mkInfo (or_empty drv) None false) with
    | (_, _, Throw e) => ([MonLoad; UpdateDataCall], Throw e)
    | (_, _, Ok _) => ([MonLoad; UpdateDataCall; CallParent], Ok tt)
    end
  else ([MonLoad; CallParent], Ok tt).

(** ** [PBS.RunningTasks] controller: opening a task *)





(** ** [PBS.TapeManagement.PoolEditWindow.cbindData] *)

(** [encodeURIComponent] on Latin-1 code units: the unreserved characters
    [A-Z a-z 0-9 - _ . ! ~ * ' ( )] are kept, every other character is
    written as the percent-encoded bytes of its UTF-8 form, with upper-case
    hex digits. *)
Definition uri_unreserved (c : ascii) : bool :=
  let n := nat_of_ascii c in
  Nat.leb 48 n && Nat.leb n 57 || Nat.leb 65 n && Nat.leb n 90 ||
  Nat.leb 97 n && Nat.leb n 122 ||
  existsb (fun x => Nat.eqb n x) [45; 95; 46; 33; 126; 42; 39; 40; 41].

Definition hex_digit (n : nat) : ascii :=
  if Nat.ltb n 10 then ascii_of_nat (48 + n) else ascii_of_nat (55 + n).

Definition pct (b : nat) : list ascii :=
  [ascii_of_nat 37; hex_digit (b / 16); hex_digit (b mod 16)].

Definition uri_enc_char (c : ascii) : list ascii :=
  let n := nat_of_ascii c in
  if uri_unreserved c then [c]
  else if Nat.ltb n 128 then pct n
  else pct (192 + n / 64) ++ pct (128 + n mod 64).

Definition encodeURIComponent (s : string) : string :=
  string_of_list_ascii (flat_map uri_enc_char (list_ascii_of_string s)).

Record pool_cbind := mkPoolCbind { isCreate : bool; pool_url : string; pool_method : string }.

Definition pool_baseurl : string := "/api2/extjs/config/media-pool".

(** [cbindData(initialConfig)] with [poolid = initialConfig.poolid]. *)
Definition pool_cbindData (poolid : option string) : pool_cbind :=
  mkPoolCbind (negb (truthy poolid))
    (if truthy poolid
     then (pool_baseurl ++ "/" ++ encodeURIComponent (match poolid with Some s => s | None => "" end))%string
     else pool_baseurl)
    (if truthy poolid then "PUT" else "POST").

(** A panel that has already reached IDLE. *)
Definition latched_panel : panel :=
  mkPanel "drv0" (mkVM true false true) (map (fun r => (r, [])) view_refs) [].

(** ** Spec-side readings used by the theorems *)

(** C3, spec reading: [tok] occurs in [s] as a whole whitespace-delimited
    word (preceded by the start or a whitespace character, followed by the
    end or a whitespace character). *)
Definition ws_delimited (tok s : list ascii) : Prop :=
  exists pre suf,
    s = pre ++ tok ++ suf /\
    (pre = [] \/ exists p c, pre = p ++ [c] /\ is_ws c = true) /\
    (suf = [] \/ exists c r, suf = c :: r /\ is_ws c = true).

(** C9, spec reading: the glyph each terminal status string maps to. *)
Definition status_icon (cls : string) : string :=
  ("<i class=" ++ dquote ++ "fa fa-" ++ cls ++ dquote ++ "></i>")%string.

Inductive status_glyph : string -> string -> Prop :=
| glyph_ok : status_glyph "OK" (status_icon "check-circle good")
| glyph_warnings : forall v,
    String.prefix "WARNINGS:" v = true ->
    status_glyph v (status_icon "exclamation-circle warning")
| glyph_unknown : status_glyph "unknown" (status_icon "question-circle faded")
| glyph_error : forall v,
    v <> "OK" -> String.prefix "WARNINGS:" v = false -> v <> "unknown" ->
    status_glyph v (status_icon "times-circle critical").

(** The inverse of [encodeURIComponent] on its image (the decoding of
    [decodeURIComponent] for one- and two-byte UTF-8 sequences), used to
    state that an encoded pool id determines the id. *)
Definition hexval (c : ascii) : option nat :=
  let n := nat_of_ascii c in
  if Nat.leb 48 n && Nat.leb n 57 then Some (n - 48)
  else if Nat.leb 65 n && Nat.leb n 70 then Some (n - 55)
  else if Nat.leb 97 n && Nat.leb n 102 then Some (n - 87)
  else None.

Fixpoint uri_decode (l : list ascii) : option (list ascii) :=
  match l with
  | [] => Some []
  | c :: rest =>
      if Ascii.eqb c "%"%char then
        match rest with
        | h1 :: h2 :: rest1 =>
            match hexval h1, hexval h2 with
            | Some a, Some b =>
                let b1 := a * 16 + b in
                if Nat.ltb b1 128 then option_map (cons (ascii_of_nat b1)) (uri_decode rest1)
                else
                  match rest1 with
                  | c2 :: h3 :: h4 :: rest2 =>
                      if Ascii.eqb c2 "%"%char then
                        match hexval h3, hexval h4 with
                        | Some x, Some y =>
                            option_map (cons (ascii_of_nat ((b1 - 192) * 64 + (x * 16 + y - 128))))
                              (uri_decode rest2)
                        | _, _ => None
                        end
                      else None
                  | _ => None
                  end
            | _, _ => None
            end
        | _ => None
        end
      else option_map (cons c) (uri_decode rest)
  end.

(** No path, query or fragment delimiter. *)
Definition no_url_delim (l : list ascii) : bool :=
  forallb (fun x => negb (Ascii.eqb x "/"%char || Ascii.eqb x "?"%char || Ascii.eqb x "#"%char)) l.

(** The value of [busy] after a sequence of device-store snapshots, read
    as "the last snapshot that contains the drive decides". *)
Definition last_busy (d : string) (evs : list (list device)) (b0 : bool) : bool :=
  fold_left (fun b e => match findRecord e d with Some r => truthy (dev_state r) | None => b end)
    evs b0.

(** ** Evaluation of handlers *)

Ltac run_m :=
  unfold onStateLoad, onLoad, reload, removeAll, lookup, vm_set_busy,
    vm_set_loaded, vm_set_online, set_vm, modify, emit, get, ret, throw, bind;
  simpl.

Lemma truthy_spec : forall v,
  truthy v = true <-> exists s, v = Some s /\ s <> "".
Proof.
  intros [s|]; simpl; split.
  - intros H. exists s. split; [reflexivity|].
    apply negb_true_iff, String.eqb_neq in H. exact H.
  - intros [s' [Hs Hne]]. inversion Hs; subst.
    apply negb_true_iff, String.eqb_neq. exact Hne.
  - discriminate.
  - intros [s' [Hs _]]. discriminate.
Qed.

Lemma has_ref_set_vm : forall st f r,
  has_ref (mkPanel (drive st) f (refs st) (windows st)) r = has_ref st r.
Proof. reflexivity. Qed.

(** ** C1: a snapshot without the panel's drive *)

(** C1 (code defect): when the panel's drive is absent from the device-store
    snapshot, [findRecord] yields [null] and [driveRecord.data] throws a
    TypeError out of [onStateLoad] into the event loop, before [busy] or
    [online] are touched.  The sibling listener [DriveInfoPanel.updateData]
    checks [if (!record) return;] for the same lookup. *)
Theorem onStateLoad_missing_drive_throws :
  forall st store,
  findRecord store (drive st) = None ->
  onStateLoad store st = (st, [], Throw (null_deref "data")).
Proof.
  intros st store Hnone. run_m. rewrite Hnone. reflexivity.
Qed.

Lemma onStateLoad_missing_drive_throws_witness :
  findRecord [mkDevice "drv1" None] (drive (init_panel "drv0")) = None /\
  onStateLoad [mkDevice "drv1" None] (init_panel "drv0")
  = (init_panel "drv0", [], Throw (null_deref "data")).
Proof.
  split; [reflexivity|].
  apply onStateLoad_missing_drive_throws. reflexivity.
Defined.

(** ** C2: [busy] is recomputed from every snapshot *)

(** C2: on every device-store snapshot that contains the panel's drive,
    whatever the panel's state (also once [loaded] is set), [onStateLoad]
    sets [busy] to true exactly when the drive's [state] is non-null and
    non-empty. *)
Theorem onStateLoad_sets_busy :
  forall st store r,
  findRecord store (drive st) = Some r ->
  match onStateLoad store st with
  | (st', _, _) => busy (vm st') = true <-> exists s, dev_state r = Some s /\ s <> ""
  end.
Proof.
  intros st store r Hr. run_m. rewrite Hr. simpl.
  destruct (loaded (vm st)), (truthy (dev_state r)) eqn:Ht; simpl;
    repeat (destruct (has_ref _ _); simpl); rewrite <- truthy_spec, Ht; tauto.
Qed.

Lemma onStateLoad_sets_busy_witness :
  findRecord [mkDevice "drv0" (Some "UPID:node:eject-media")] (drive (init_panel "drv0"))
    = Some (mkDevice "drv0" (Some "UPID:node:eject-media")) /\
  match onStateLoad [mkDevice "drv0" (Some "UPID:node:eject-media")] (init_panel "drv0") with
  | (st', _, _) => busy (vm st') = true <->
      exists s, dev_state (mkDevice "drv0" (Some "UPID:node:eject-media")) = Some s /\ s <> ""
  end.
Proof.
  split; [reflexivity|].
  apply onStateLoad_sets_busy. reflexivity.
Defined.

(** ** Whitespace split *)

Definition no_ws (t : list ascii) : bool := forallb (fun c => negb (is_ws c)) t.

Lemma ws_split_fst : forall c s, fst (ws_split (c :: s)) = is_ws c.
Proof.
  intros c s. simpl. destruct (ws_split s) as [w toks].
  destruct (is_ws c); [destruct w; reflexivity|].
  destruct toks; reflexivity.
Qed.

Lemma ws_split_nonempty : forall s, snd (ws_split s) <> [].
Proof.
  induction s as [|c s IH]; simpl; [discriminate|].
  destruct (ws_split s) as [w toks].
  destruct (is_ws c); [destruct w; simpl; [exact IH|discriminate]|].
  destruct toks; discriminate.
Qed.

Lemma ws_split_cons_nonws : forall c s, is_ws c = false ->
  snd (ws_split (c :: s)) = (c :: hd [] (snd (ws_split s))) :: tl (snd (ws_split s)).
Proof.
  intros c s Hc. pose proof (ws_split_nonempty s) as Hne. simpl.
  destruct (ws_split s) as [w toks]. rewrite Hc.
  destruct toks; [contradiction|reflexivity].
Qed.

Lemma ws_split_cons_ws : forall c s, is_ws c = true ->
  snd (ws_split (c :: s)) =
  if fst (ws_split s) then snd (ws_split s) else [] :: snd (ws_split s).
Proof.
  intros c s Hc. simpl. destruct (ws_split s) as [w toks]. rewrite Hc.
  destruct w; reflexivity.
Qed.

Lemma ws_split_hd_ws : forall s,
  (s = [] \/ exists c r, s = c :: r /\ is_ws c = true) ->
  hd [] (snd (ws_split s)) = [].
Proof.
  intros s [->|[c [r [-> Hc]]]]; [reflexivity|].
  revert c Hc. induction r as [|c' r IH]; intros c Hc.
  - rewrite ws_split_cons_ws by exact Hc. reflexivity.
  - rewrite ws_split_cons_ws by exact Hc. rewrite ws_split_fst.
    destruct (is_ws c') eqn:Hc'; [apply (IH c' Hc')|reflexivity].
Qed.

Lemma ws_split_app_nows : forall t s, no_ws t = true ->
  snd (ws_split (t ++ s)) = (t ++ hd [] (snd (ws_split s))) :: tl (snd (ws_split s)).
Proof.
  induction t as [|c t IH]; intros s Ht.
  - simpl. destruct (snd (ws_split s)) eqn:E; [exfalso; exact (ws_split_nonempty s E)|].
    reflexivity.
  - simpl in Ht. apply andb_prop in Ht as [Hc Ht]. apply negb_true_iff in Hc.
    rewrite <- app_comm_cons, ws_split_cons_nonws by exact Hc.
    rewrite IH by exact Ht. reflexivity.
Qed.

(** The first piece is the prefix before the first whitespace run. *)
Lemma ws_split_hd_prefix : forall s, exists suf,
  s = hd [] (snd (ws_split s)) ++ suf /\
  (suf = [] \/ exists c r, suf = c :: r /\ is_ws c = true).
Proof.
  induction s as [|c s IH].
  - exists []. split; [reflexivity|left; reflexivity].
  - destruct (is_ws c) eqn:Hc.
    + rewrite (ws_split_hd_ws (c :: s)) by (right; exists c, s; split; [reflexivity|exact Hc]).
      exists (c :: s). split; [reflexivity|right; exists c, s; split; [reflexivity|exact Hc]].
    + destruct IH as [suf [Hs Hsuf]].
      rewrite ws_split_cons_nonws by exact Hc. simpl.
      exists suf. split; [rewrite Hs at 1; reflexivity|exact Hsuf].
Qed.

Lemma ws_split_tl_cons : forall c s t,
  In t (tl (snd (ws_split s))) -> In t (tl (snd (ws_split (c :: s)))).
Proof.
  intros c s t Hin. destruct (is_ws c) eqn:Hc.
  - rewrite ws_split_cons_ws by exact Hc.
    destruct (fst (ws_split s)); [exact Hin|].
    simpl. destruct (snd (ws_split s)); [contradiction|right; exact Hin].
  - rewrite ws_split_cons_nonws by exact Hc. exact Hin.
Qed.

Lemma ws_split_tl_delimited : forall tok s, tok <> [] ->
  In tok (tl (snd (ws_split s))) ->
  exists pre suf, s = pre ++ tok ++ suf /\
    (exists p c, pre = p ++ [c] /\ is_ws c = true) /\
    (suf = [] \/ exists c r, suf = c :: r /\ is_ws c = true).
Proof.
  intros tok s Htok. induction s as [|c s IH]; intros Hin; [contradiction|].
  destruct (is_ws c) eqn:Hc.
  - rewrite ws_split_cons_ws in Hin by exact Hc.
    destruct (fst (ws_split s)).
    + destruct (IH Hin) as [pre [suf [Hs [[p [c' [Hp Hc']]] Hsuf]]]].
      exists (c :: pre), suf. split; [rewrite Hs; reflexivity|].
      split; [exists (c :: p), c'; rewrite Hp; split; [reflexivity|exact Hc']|exact Hsuf].
    + simpl in Hin. destruct (snd (ws_split s)) as [|h rest] eqn:E;
        [exfalso; exact (ws_split_nonempty s E)|].
      destruct Hin as [<-|Hin].
      * destruct (ws_split_hd_prefix s) as [suf [Hs Hsuf]]. rewrite E in Hs. simpl in Hs.
        exists [c], suf. split; [rewrite Hs; reflexivity|].
        split; [exists [], c; split; [reflexivity|exact Hc]|exact Hsuf].
      * destruct IH as [pre [suf [Hs [[p [c' [Hp Hc']]] Hsuf]]]];
          [first [exact Hin | rewrite E; exact Hin]|].
        exists (c :: pre), suf. split; [rewrite Hs; reflexivity|].
        split; [exists (c :: p), c'; rewrite Hp; split; [reflexivity|exact Hc']|exact Hsuf].
  - rewrite ws_split_cons_nonws in Hin by exact Hc. simpl in Hin.
    destruct (IH Hin) as [pre [suf [Hs [[p [c' [Hp Hc']]] Hsuf]]]].
    exists (c :: pre), suf. split; [rewrite Hs; reflexivity|].
    split; [exists (c :: p), c'; rewrite Hp; split; [reflexivity|exact Hc']|exact Hsuf].
Qed.

Lemma ws_split_after_ws : forall tok p c suf,
  tok <> [] -> no_ws tok = true -> is_ws c = true ->
  (suf = [] \/ exists c' r, suf = c' :: r /\ is_ws c' = true) ->
  In tok (tl (snd (ws_split (p ++ [c] ++ tok ++ suf)))).
Proof.
  intros tok p c suf Hne Hnw Hc Hsuf. induction p as [|c0 p IH].
  - change ([] ++ [c] ++ tok ++ suf) with (c :: tok ++ suf).
    rewrite ws_split_cons_ws by exact Hc.
    destruct tok as [|t0 tok']; [contradiction|].
    rewrite <- app_comm_cons, ws_split_fst.
    assert (Ht0 : is_ws t0 = false).
    { simpl in Hnw. apply andb_prop in Hnw as [Ht0 _]. apply negb_true_iff. exact Ht0. }
    rewrite Ht0, app_comm_cons, ws_split_app_nows by exact Hnw.
    rewrite (ws_split_hd_ws suf Hsuf), app_nil_r. left; reflexivity.
  - rewrite <- app_comm_cons. apply ws_split_tl_cons. exact IH.
Qed.

(** A word without whitespace is a piece of the split exactly when it
    occurs delimited by whitespace or the ends of the input. *)
Lemma ws_split_in_iff : forall tok s, tok <> [] -> no_ws tok = true ->
  In tok (snd (ws_split s)) <-> ws_delimited tok s.
Proof.
  intros tok s Hne Hnw. split.
  - intros Hin. destruct (snd (ws_split s)) as [|h rest] eqn:E;
      [exfalso; exact (ws_split_nonempty s E)|].
    destruct Hin as [<-|Hin].
    + destruct (ws_split_hd_prefix s) as [suf [Hs Hsuf]]. rewrite E in Hs.
      exists [], suf. split; [exact Hs|split; [left; reflexivity|exact Hsuf]].
    + destruct (ws_split_tl_delimited tok s Hne) as [pre [suf [Hs [Hpre Hsuf]]]];
        [rewrite E; exact Hin|].
      exists pre, suf. split; [exact Hs|split; [right; exact Hpre|exact Hsuf]].
  - intros [pre [suf [Hs [[->|[p [c [-> Hc]]]] Hsuf]]]]; subst s.
    + simpl. rewrite ws_split_app_nows by exact Hnw.
      rewrite (ws_split_hd_ws suf Hsuf), app_nil_r. left; reflexivity.
    + rewrite <- app_assoc.
      pose proof (ws_split_after_ws tok p c suf Hne Hnw Hc Hsuf) as H.
      destruct (snd (ws_split _)); [contradiction|right; exact H].
Qed.

Lemma indexOf_from_none : forall l x i, (0 <= i)%Z ->
  indexOf_from l x i = (-1)%Z <-> ~ In x l.
Proof.
  induction l as [|y l IH]; intros x i Hi; simpl.
  - tauto.
  - destruct (String.eqb y x) eqn:E.
    + apply String.eqb_eq in E. split; [lia|]. intros H. exfalso. apply H. left; exact E.
    + apply String.eqb_neq in E. rewrite IH by lia. intuition.
Qed.

Lemma in_split_ws : forall tok s,
  In tok (split_ws s) <-> In (list_ascii_of_string tok) (snd (ws_split (list_ascii_of_string s))).
Proof.
  intros tok s. unfold split_ws. rewrite in_map_iff. split.
  - intros [x [<- Hx]]. rewrite list_ascii_of_string_of_list_ascii. exact Hx.
  - intros H. exists (list_ascii_of_string tok).
    split; [apply string_of_list_ascii_of_string|exact H].
Qed.

(** ** C3: the [online] flag *)

(** [onLoad] sets [online] from the [ONLINE] token, whether or not it then
    throws. *)
Lemma onLoad_online : forall st rows,
  has_ref st "statusgrid" = true ->
  match onLoad rows st with
  | (st', _, _) =>
      online (vm st') =
      negb (Z.eqb (indexOf (split_ws (or_empty (getObjectValue rows "status"))) "ONLINE") (-1)%Z)
  end.
Proof.
  intros st rows Hg. unfold onLoad.
  set (on := negb (Z.eqb (indexOf (split_ws (or_empty (getObjectValue rows "status"))) "ONLINE") (-1)%Z)).
  unfold removeAll, lookup, vm_set_online, set_vm, modify, emit, ret, throw, bind.
  rewrite Hg. simpl.
  destruct on; simpl; [reflexivity|].
  destruct (has_ref _ "cartridgegrid"); reflexivity.
Qed.

Lemma online_token_iff : forall s,
  negb (Z.eqb (indexOf (split_ws s) "ONLINE") (-1)%Z) = true <-> In "ONLINE" (split_ws s).
Proof.
  intros s. rewrite negb_true_iff, Z.eqb_neq. unfold indexOf.
  rewrite indexOf_from_none by lia. split; [|tauto].
  intros H. destruct (In_dec String.string_dec "ONLINE" (split_ws s)); tauto.
Qed.

(** C3: on every status-detail load, [online] is set to true exactly when
    [ONLINE] is one of the pieces of the [status] field split on whitespace,
    that is, when [ONLINE] occurs in it as a whole whitespace-delimited word;
    a status ["ONLINE READY"] gives [online = true], ["OFFLINE"] gives
    [online = false]. *)
Theorem onLoad_online_iff_token :
  forall st rows,
  has_ref st "statusgrid" = true ->
  let s := or_empty (getObjectValue rows "status") in
  match onLoad rows st with
  | (st', _, _) =>
      (online (vm st') = true <-> In "ONLINE" (split_ws s)) /\
      (online (vm st') = true <->
         ws_delimited (list_ascii_of_string "ONLINE") (list_ascii_of_string s))
  end /\
  online (vm (fst (fst (onLoad [("status", "ONLINE READY")] st)))) = true /\
  online (vm (fst (fst (onLoad [("status", "OFFLINE")] st)))) = false.
Proof.
  intros st rows Hg s.
  pose proof (onLoad_online st rows Hg) as Hon.
  pose proof (onLoad_online st [("status", "ONLINE READY")] Hg) as H1.
  pose proof (onLoad_online st [("status", "OFFLINE")] Hg) as H2.
  split; [|split].
  - revert Hon. destruct (onLoad rows st) as [[st' eff] res].
    intros Hon. rewrite Hon. fold s. rewrite online_token_iff.
    split; [reflexivity|].
    rewrite in_split_ws. apply ws_split_in_iff; [discriminate|reflexivity].
  - revert H1. destruct (onLoad [("status", "ONLINE READY")] st) as [[st' eff] res].
    simpl. intros ->. reflexivity.
  - revert H2. destruct (onLoad [("status", "OFFLINE")] st) as [[st' eff] res].
    simpl. intros ->. reflexivity.
Qed.

Lemma onLoad_online_iff_token_witness :
  has_ref (init_panel "drv0") "statusgrid" = true /\
  (let s := or_empty (getObjectValue [("status", "ONLINE")] "status") in
  match onLoad [("status", "ONLINE")] (init_panel "drv0") with
  | (st', _, _) =>
      (online (vm st') = true <-> In "ONLINE" (split_ws s)) /\
      (online (vm st') = true <->
         ws_delimited (list_ascii_of_string "ONLINE") (list_ascii_of_string s))
  end /\
  online (vm (fst (fst (onLoad [("status", "ONLINE READY")] (init_panel "drv0"))))) = true /\
  online (vm (fst (fst (onLoad [("status", "OFFLINE")] (init_panel "drv0"))))) = false).
Proof.
  split; [reflexivity|].
  apply onLoad_online_iff_token. reflexivity.
Defined.

(** ** C4, C5: the [loaded] latch over a sequence of snapshots *)

Lemma has_ref_same_refs : forall st st1 r,
  refs st1 = refs st -> has_ref st1 r = has_ref st r.
Proof. intros st st1 r H. unfold has_ref. rewrite H. reflexivity. Qed.

(** One [onStateLoad] event, by the latch and the snapshot. *)
Lemma onStateLoad_step : forall e st,
  has_ref st "statusgrid" = true ->
  match onStateLoad e st with
  | (st1, eff, _) =>
      drive st1 = drive st /\ refs st1 = refs st /\
      if loaded (vm st) then
        loaded (vm st1) = true /\ count_eff is_reload eff = 0 /\ count_eff is_unmask eff = 0
      else if idle_in (drive st) e then
        loaded (vm st1) = true /\ count_eff is_reload eff = 1 /\ count_eff is_unmask eff = 1
      else
        loaded (vm st1) = false /\ count_eff is_reload eff = 0 /\ count_eff is_unmask eff = 0
  end.
Proof.
  intros e st Hg. run_m. unfold idle_in.
  destruct (findRecord e (drive st)) as [r|]; simpl.
  - destruct (loaded (vm st)), (truthy (dev_state r)); simpl;
      rewrite ?has_ref_set_vm, ?Hg; simpl; repeat split; reflexivity.
  - destruct (loaded (vm st)); repeat split; reflexivity.
Qed.

Lemma first_idle_from_shift : forall d evs n,
  first_idle_from d evs (S n) = option_map S (first_idle_from d evs n).
Proof.
  intros d evs. induction evs as [|e es IH]; intros n; simpl; [reflexivity|].
  destruct (idle_in d e); [reflexivity|apply IH].
Qed.

Lemma first_idle_cons : forall d e es,
  first_idle d (e :: es) =
  if idle_in d e then Some 0 else option_map S (first_idle d es).
Proof.
  intros d e es. unfold first_idle. simpl.
  destruct (idle_in d e); [reflexivity|apply first_idle_from_shift].
Qed.

Lemma run_state_events_cons : forall e es st,
  run_state_events (e :: es) st =
  match onStateLoad e st with
  | (st1, eff, _) => (fst (run_state_events es st1), eff :: snd (run_state_events es st1))
  end.
Proof.
  intros e es st. simpl. destruct (onStateLoad e st) as [[st1 eff] r].
  destruct (run_state_events es st1); reflexivity.
Qed.

Lemma run_latched : forall evs st,
  has_ref st "statusgrid" = true -> loaded (vm st) = true ->
  (forall i, count_eff is_reload (nth i (snd (run_state_events evs st)) []) = 0 /\
             count_eff is_unmask (nth i (snd (run_state_events evs st)) []) = 0) /\
  loaded (vm (fst (run_state_events evs st))) = true.
Proof.
  induction evs as [|e es IH]; intros st Hg Hl.
  - split; [intros [|i]; split; reflexivity|exact Hl].
  - rewrite run_state_events_cons.
    pose proof (onStateLoad_step e st Hg) as Hs.
    destruct (onStateLoad e st) as [[st1 eff] r].
    destruct Hs as [_ [Hrefs Hs]]. rewrite Hl in Hs. destruct Hs as [Hl1 [Hc1 Hu1]].
    assert (Hg1 : has_ref st1 "statusgrid" = true)
      by (rewrite (has_ref_same_refs st st1 _ Hrefs); exact Hg).
    destruct (IH st1 Hg1 Hl1) as [Hi Hf].
    split; [intros [|i]; [split; assumption|apply Hi]|exact Hf].
Qed.

Lemma run_unlatched : forall evs st,
  has_ref st "statusgrid" = true -> loaded (vm st) = false ->
  (forall i,
     count_eff is_reload (nth i (snd (run_state_events evs st)) []) =
       match first_idle (drive st) evs with Some j => if Nat.eqb i j then 1 else 0 | None => 0 end /\
     count_eff is_unmask (nth i (snd (run_state_events evs st)) []) =
       match first_idle (drive st) evs with Some j => if Nat.eqb i j then 1 else 0 | None => 0 end) /\
  (forall k,
     loaded (vm (fst (run_state_events (firstn k evs) st))) =
       match first_idle (drive st) evs with Some j => Nat.ltb j k | None => false end).
Proof.
  induction evs as [|e es IH]; intros st Hg Hl.
  - split; [intros [|i]; split; reflexivity|].
    intros k. rewrite firstn_nil. exact Hl.
  - rewrite first_idle_cons.
    pose proof (onStateLoad_step e st Hg) as Hs.
    split.
    + rewrite run_state_events_cons.
      destruct (onStateLoad e st) as [[st1 eff] r].
      destruct Hs as [Hd [Hrefs Hs]]. rewrite Hl in Hs.
      assert (Hg1 : has_ref st1 "statusgrid" = true)
        by (rewrite (has_ref_same_refs st st1 _ Hrefs); exact Hg).
      destruct (idle_in (drive st) e); destruct Hs as [Hl1 [Hc1 Hu1]].
      * destruct (run_latched es st1 Hg1 Hl1) as [Hi _].
        intros [|i]; [split; assumption|apply Hi].
      * destruct (IH st1 Hg1 Hl1) as [Hi _]. rewrite Hd in Hi.
        intros [|i]; simpl.
        -- destruct (first_idle (drive st) es); split; assumption.
        -- destruct (Hi i) as [Hr Hu].
           destruct (first_idle (drive st) es); simpl; split; assumption.
    + intros [|k].
      { simpl. rewrite Hl. destruct (idle_in (drive st) e); [reflexivity|].
        destruct (first_idle (drive st) es); reflexivity. }
      simpl firstn. rewrite run_state_events_cons.
      destruct (onStateLoad e st) as [[st1 eff] r].
      destruct Hs as [Hd [Hrefs Hs]]. rewrite Hl in Hs.
      assert (Hg1 : has_ref st1 "statusgrid" = true)
        by (rewrite (has_ref_same_refs st st1 _ Hrefs); exact Hg).
      destruct (idle_in (drive st) e); destruct Hs as [Hl1 [Hc1 Hu1]].
      * destruct (run_latched (firstn k es) st1 Hg1 Hl1) as [_ Hf]. exact Hf.
      * destruct (IH st1 Hg1 Hl1) as [_ Hf]. rewrite Hd in Hf. simpl. rewrite Hf.
        destruct (first_idle (drive st) es); reflexivity.
Qed.

(** C4: over any sequence of device-store snapshots seen by one panel, the
    automatic unmask and status reload happen on exactly one event, the
    first one showing the drive idle, and never when no snapshot does; the
    [loaded] latch is false before that event and true from it on. *)
Theorem auto_reload_fires_once :
  forall d evs,
  let tr := snd (run_state_events evs (init_panel d)) in
  (forall i, count_eff is_reload (nth i tr []) =
     match first_idle d evs with Some j => if Nat.eqb i j then 1 else 0 | None => 0 end) /\
  (forall i, count_eff is_unmask (nth i tr []) =
     match first_idle d evs with Some j => if Nat.eqb i j then 1 else 0 | None => 0 end) /\
  (forall k, loaded (vm (fst (run_state_events (firstn k evs) (init_panel d)))) =
     match first_idle d evs with Some j => Nat.ltb j k | None => false end).
Proof.
  intros d evs tr.
  destruct (run_unlatched evs (init_panel d) eq_refl eq_refl) as [Hi Hk].
  split; [|split].
  - intros i. apply (Hi i).
  - intros i. apply (Hi i).
  - exact Hk.
Qed.

(** The snapshot sequence busy, busy, idle, busy, idle. *)
Example auto_reload_busy_idle_sequence :
  let b := [mkDevice "drv0" (Some "UPID:node:eject-media")] in
  let i := [mkDevice "drv0" None] in
  map (count_eff is_reload) (snd (run_state_events [b; b; i; b; i] (init_panel "drv0")))
  = [0; 0; 1; 0; 0].
Proof. reflexivity. Qed.

(** C5, as stated, fails: a snapshot that shows the drive busy again after
    the latch is set schedules no mask at all. *)
Lemma busy_again_no_remask :
  ~ (exists ms tgt msg,
       In (ETimeout ms (Mask tgt msg))
          (snd (fst (onStateLoad [mkDevice "drv0" (Some "UPID:node:eject-media")] latched_panel)))).
Proof.
  vm_compute. intros [ms [tgt [msg []]]].
Qed.

(** C5 (amended): once [loaded] is set, a snapshot showing the drive busy
    again only sets [busy] (which disables Reload): no mask, no reload, and
    the latch stays set. *)
Theorem onStateLoad_busy_after_latch :
  forall st store r,
  loaded (vm st) = true ->
  findRecord store (drive st) = Some r ->
  truthy (dev_state r) = true ->
  onStateLoad store st =
  (mkPanel (drive st) (mkVM (online (vm st)) true true) (refs st) (windows st), [], Ok tt).
Proof.
  intros [d [o b l] rf w] store r Hl Hr Ht. simpl in Hl, Hr. subst l.
  run_m. rewrite Hr. simpl. rewrite Ht. simpl. reflexivity.
Qed.

Lemma onStateLoad_busy_after_latch_witness :
  loaded (vm latched_panel) = true /\
  findRecord [mkDevice "drv0" (Some "UPID:node:eject-media")] (drive latched_panel)
    = Some (mkDevice "drv0" (Some "UPID:node:eject-media")) /\
  truthy (dev_state (mkDevice "drv0" (Some "UPID:node:eject-media"))) = true /\
  onStateLoad [mkDevice "drv0" (Some "UPID:node:eject-media")] latched_panel =
  (mkPanel (drive latched_panel) (mkVM (online (vm latched_panel)) true true)
     (refs latched_panel) (windows latched_panel), [], Ok tt).
Proof.
  split; [reflexivity|]. split; [reflexivity|]. split; [reflexivity|].
  apply (onStateLoad_busy_after_latch _ _ (mkDevice "drv0" (Some "UPID:node:eject-media")));
    reflexivity.
Defined.

(** ** C6: task handles of the commands *)

Lemma taskDone_reload : forall st i w,
  has_ref st "statusgrid" = true ->
  nth_error (windows st) i = Some w -> tw_done w = CbReload ->
  taskDone i st = (st, [ERstoreLoad "statusgrid"], Ok tt).
Proof.
  intros st i w Hg Hw Hd. unfold taskDone, run_callback, reload, lookup, get, emit, bind.
  simpl. rewrite Hw, Hd, Hg. reflexivity.
Qed.

(** C6: [read-label] never opens a task window and never reloads, whatever
    the backend answers; [eject-media], on the task identifier [u] it
    returns, opens exactly one task window watching [u] whose completion
    event triggers exactly one status reload (and leaves the panel as it
    is, so every such event does the same); a failed eject request opens
    no window. *)
Theorem command_task_handles :
  forall st u,
  has_ref st "statusgrid" = true ->
  (forall resp,
     match readLabel resp st with
     | (st', eff, res) =>
         st' = st /\ res = Ok tt /\ count_eff is_reload eff = 0 /\
         (forall k a, ~ In (EShowWindow k a) eff)
     end) /\
  ejectMedia (RespOk u) st =
    (mkPanel (drive st) (vm st) (refs st) (windows st ++ [mkTW TaskProgress u CbReload]),
     [ERequest (drive st) "eject-media" (Some "POST"); EShowWindow TaskProgress u], Ok tt) /\
  (let st1 := fst (fst (ejectMedia (RespOk u) st)) in
   taskDone (length (windows st)) st1 = (st1, [ERstoreLoad "statusgrid"], Ok tt)) /\
  (forall msg, windows (fst (fst (ejectMedia (RespFail msg) st))) = windows st).
Proof.
  intros st u Hg. split; [|split; [|split]].
  - intros [data|msg]; unfold readLabel, driveCommand, get, emit, bind; simpl;
      (split; [reflexivity|split; [reflexivity|split; [reflexivity|]]]);
      intros k a [H|[H|[]]]; discriminate.
  - reflexivity.
  - simpl. apply taskDone_reload with (w := mkTW TaskProgress u CbReload).
    + exact Hg.
    + simpl. rewrite nth_error_app2 by lia. rewrite Nat.sub_diag. reflexivity.
    + reflexivity.
  - intros msg. reflexivity.
Qed.

Lemma command_task_handles_witness :
  has_ref (init_panel "drv0") "statusgrid" = true /\
  ((forall resp,
     match readLabel resp (init_panel "drv0") with
     | (st', eff, res) =>
         st' = init_panel "drv0" /\ res = Ok tt /\ count_eff is_reload eff = 0 /\
         (forall k a, ~ In (EShowWindow k a) eff)
     end) /\
  ejectMedia (RespOk "UPID:node:eject-media") (init_panel "drv0") =
    (mkPanel (drive (init_panel "drv0")) (vm (init_panel "drv0")) (refs (init_panel "drv0"))
       (windows (init_panel "drv0") ++ [mkTW TaskProgress "UPID:node:eject-media" CbReload]),
     [ERequest (drive (init_panel "drv0")) "eject-media" (Some "POST");
      EShowWindow TaskProgress "UPID:node:eject-media"], Ok tt) /\
  (let st1 := fst (fst (ejectMedia (RespOk "UPID:node:eject-media") (init_panel "drv0"))) in
   taskDone (length (windows (init_panel "drv0"))) st1 = (st1, [ERstoreLoad "statusgrid"], Ok tt)) /\
  (forall msg, windows (fst (fst (ejectMedia (RespFail msg) (init_panel "drv0"))))
               = windows (init_panel "drv0"))).
Proof.
  split; [reflexivity|].
  apply command_task_handles. reflexivity.
Defined.

(** ** C7: toolbar gating *)

(** C7: the enabled state of every toolbar button is a function of the
    flags alone: Reload is enabled iff not [busy]; Label Media, Eject,
    Catalog, Read Label, Volume Statistics and Cartridge Memory iff
    [online]. *)
Theorem toolbar_enabled_by_flags :
  forall v,
  map (fun b => (btn_text b, button_enabled v b)) tbar =
  [("Reload", negb (busy v));
   ("Label Media", online v);
   ("Eject", online v);
   ("Catalog", online v);
   ("Read Label", online v);
   ("Volume Statistics", online v);
   ("Cartridge Memory", online v)].
Proof.
  intros [o b l]. destruct o; reflexivity.
Qed.

(** ** C8: the cartridge listing on an offline status *)

Lemma has_ref_names : forall st r,
  has_ref st r = existsb (fun x => String.eqb x r) (map fst (refs st)).
Proof.
  intros st r. unfold has_ref. induction (refs st) as [|p ps IH]; simpl; [reflexivity|].
  rewrite IH. reflexivity.
Qed.

(** C8 (code defect): [onLoad] clears the cartridge listing through
    [me.lookup('cartridgegrid')], but the DriveStatus view declares no
    component with that reference (its references are [statusgrid] and
    [statewidget]).  On every status load without the [ONLINE] token the
    handler sets [online = false] and then throws a TypeError on
    [null.getStore()]: nothing is cleared. *)
Theorem onLoad_offline_throws :
  forall st rows,
  map fst (refs st) = view_refs ->
  ~ In "ONLINE" (split_ws (or_empty (getObjectValue rows "status"))) ->
  onLoad rows st =
  (mkPanel (drive st) (mkVM false (busy (vm st)) (loaded (vm st))) (refs st) (windows st),
   [], Throw (null_deref "getStore")).
Proof.
  intros st rows Hrefs Hoff.
  assert (Hg : has_ref st "statusgrid" = true) by (rewrite has_ref_names, Hrefs; reflexivity).
  assert (Hc : has_ref st "cartridgegrid" = false) by (rewrite has_ref_names, Hrefs; reflexivity).
  assert (Hon : negb (Z.eqb (indexOf (split_ws (or_empty (getObjectValue rows "status"))) "ONLINE")
                  (-1)%Z) = false).
  { destruct (negb _) eqn:E; [|reflexivity]. exfalso. apply Hoff.
    apply online_token_iff. exact E. }
  unfold onLoad.
  unfold removeAll, lookup, vm_set_online, set_vm, modify, emit, ret, throw, bind.
  rewrite Hg. simpl. rewrite Hon. simpl. rewrite has_ref_set_vm, Hc. reflexivity.
Qed.

Lemma onLoad_offline_throws_witness :
  map fst (refs (init_panel "drv0")) = view_refs /\
  ~ In "ONLINE" (split_ws (or_empty (getObjectValue [("status", "OFFLINE")] "status"))) /\
  onLoad [("status", "OFFLINE")] (init_panel "drv0") =
  (mkPanel (drive (init_panel "drv0"))
     (mkVM false (busy (vm (init_panel "drv0"))) (loaded (vm (init_panel "drv0"))))
     (refs (init_panel "drv0")) (windows (init_panel "drv0")),
   [], Throw (null_deref "getStore")).
Proof.
  split; [reflexivity|]. split.
  - vm_compute. intros [H|[]]; discriminate.
  - apply onLoad_offline_throws; [reflexivity|].
    vm_compute. intros [H|[]]; discriminate.
Defined.

(** ** C9: status glyphs of the running-tasks list *)

(** C9: [render_status] maps "OK" to the success glyph, a string starting
    with "WARNINGS:" to the warning glyph, "unknown" to the faded question
    glyph and every other string to the critical glyph, and to nothing
    else. *)
Theorem render_status_glyphs :
  forall v h, status_glyph v h <-> render_status v = h.
Proof.
  intros v h. split.
  - intros Hg. destruct Hg as [|v Hw| |v Hok Hw Hu]; unfold render_status.
    + reflexivity.
    + destruct (String.eqb_spec v "OK") as [->|_]; [discriminate Hw|].
      rewrite Hw. reflexivity.
    + reflexivity.
    + apply String.eqb_neq in Hok, Hu. rewrite Hok, Hw, Hu. reflexivity.
  - intros <-. unfold render_status.
    destruct (String.eqb_spec v "OK") as [->|Hok]; [exact glyph_ok|].
    destruct (String.prefix "WARNINGS:" v) eqn:Hw; [exact (glyph_warnings v Hw)|].
    destruct (String.eqb_spec v "unknown") as [->|Hu]; [exact glyph_unknown|].
    exact (glyph_error v Hok Hw Hu).
Qed.

(** ** C10: the info panel needs a drive *)

(** C10: [DriveInfoPanel.initComponent] throws "no drive given" before
    subscribing to the device store when no drive is given (or it is
    empty); with a drive the check does not throw: the panel subscribes
    first, and never throws "no drive given".  (Later in the same call,
    [updateData] on a loaded store holding the drive throws a TypeError
    before [callParent]; otherwise initialization completes.) *)
Theorem initComponent_requires_drive :
  forall drv tapeStoreLoaded tapeStore,
  ((drv = None \/ drv = Some "") ->
   initComponent drv tapeStoreLoaded tapeStore = ([], Throw (Thrown "no drive given"))) /\
  (forall d, drv = Some d -> d <> "" ->
   exists rest out,
     initComponent drv tapeStoreLoaded tapeStore = (MonLoad :: rest, out) /\
     out <> Throw (Thrown "no drive given") /\
     (out = Ok tt <-> tapeStoreLoaded = false \/ findRecord tapeStore d = None)).
Proof.
  intros drv l recs. split.
  - intros [->| ->]; reflexivity.
  - intros d -> Hd. unfold initComponent, truthy, or_empty.
    apply String.eqb_neq in Hd. rewrite Hd. simpl.
    destruct l.
    + unfold updateData. simpl.
      destruct (findRecord recs d) as [r|].
      * do 2 eexists. split; [reflexivity|].
        split; [discriminate|]. split; [discriminate|intros [H|H]; discriminate].
      * do 2 eexists. split; [reflexivity|].
        split; [discriminate|]. split; [intros _; right; reflexivity|reflexivity].
    + do 2 eexists. split; [reflexivity|].
      split; [discriminate|]. split; [intros _; left; reflexivity|reflexivity].
Qed.

(** * Further properties of the panels *)

(** ** [encodeURIComponent] and the pool edit window *)

Example encodeURIComponent_sample :
  encodeURIComponent "a b/" = "a%20b%2F".
Proof. reflexivity. Qed.

Lemma uri_decode_enc_char : forall c rest,
  uri_decode (uri_enc_char c ++ rest) = option_map (cons c) (uri_decode rest).
Proof.
  intros [[] [] [] [] [] [] [] []] rest; reflexivity.
Qed.

Lemma uri_enc_char_no_delim : forall c, no_url_delim (uri_enc_char c) = true.
Proof.
  intros [[] [] [] [] [] [] [] []]; reflexivity.
Qed.

Lemma uri_decode_flat_map : forall l,
  uri_decode (flat_map uri_enc_char l) = Some l.
Proof.
  induction l as [|c l IH]; [reflexivity|].
  simpl. rewrite uri_decode_enc_char, IH. reflexivity.
Qed.

Lemma no_url_delim_flat_map : forall l,
  no_url_delim (flat_map uri_enc_char l) = true.
Proof.
  induction l as [|c l IH]; [reflexivity|].
  simpl. unfold no_url_delim in *. rewrite forallb_app, IH, uri_enc_char_no_delim.
  reflexivity.
Qed.

Lemma list_ascii_of_string_append : forall a b,
  list_ascii_of_string (a ++ b) = list_ascii_of_string a ++ list_ascii_of_string b.
Proof.
  induction a as [|c a IH]; intros b; [reflexivity|]. simpl. rewrite IH. reflexivity.
Qed.

Lemma list_ascii_of_string_inj : forall a b,
  list_ascii_of_string a = list_ascii_of_string b -> a = b.
Proof.
  intros a b H. rewrite <- (string_of_list_ascii_of_string a), <- (string_of_list_ascii_of_string b).
  rewrite H. reflexivity.
Qed.

(** [encodeURIComponent] output has no '/', '?' or '#', and decodes back to
    its input. *)
Theorem encodeURIComponent_roundtrip :
  forall s,
  no_url_delim (list_ascii_of_string (encodeURIComponent s)) = true /\
  uri_decode (list_ascii_of_string (encodeURIComponent s)) = Some (list_ascii_of_string s).
Proof.
  intros s. unfold encodeURIComponent. rewrite list_ascii_of_string_of_list_ascii.
  split; [apply no_url_delim_flat_map|apply uri_decode_flat_map].
Qed.

(** The pool edit window posts to the collection URL to create a pool when
    no (or an empty) pool id is given; with a pool id it edits with PUT at
    the collection URL followed by one path segment, the encoded id, that
    holds no further delimiter and decodes back to the id. *)
Theorem pool_cbindData_modes :
  pool_cbindData None = mkPoolCbind true pool_baseurl "POST" /\
  pool_cbindData (Some "") = mkPoolCbind true pool_baseurl "POST" /\
  forall p, p <> "" ->
    isCreate (pool_cbindData (Some p)) = false /\
    pool_method (pool_cbindData (Some p)) = "PUT" /\
    exists seg,
      pool_url (pool_cbindData (Some p)) = (pool_baseurl ++ "/" ++ seg)%string /\
      no_url_delim (list_ascii_of_string seg) = true /\
      uri_decode (list_ascii_of_string seg) = Some (list_ascii_of_string p).
Proof.
  split; [reflexivity|]. split; [reflexivity|].
  intros p Hp. unfold pool_cbindData, truthy.
  apply String.eqb_neq in Hp. rewrite Hp. simpl.
  split; [reflexivity|]. split; [reflexivity|].
  exists (encodeURIComponent p). split; [reflexivity|].
  apply encodeURIComponent_roundtrip.
Qed.

(** Two pool ids give the same edit URL only if they are the same id. *)
Theorem pool_url_injective :
  forall p1 p2, p1 <> "" -> p2 <> "" ->
  pool_url (pool_cbindData (Some p1)) = pool_url (pool_cbindData (Some p2)) ->
  p1 = p2.
Proof.
  intros p1 p2 H1 H2 Heq. unfold pool_cbindData, truthy in Heq.
  apply String.eqb_neq in H1, H2. rewrite H1, H2 in Heq.
  cbv beta iota delta [negb pool_url] in Heq.
  apply (f_equal list_ascii_of_string) in Heq.
  rewrite !list_ascii_of_string_append in Heq.
  apply app_inv_head, app_inv_head in Heq.
  destruct (encodeURIComponent_roundtrip p1) as [_ D1].
  destruct (encodeURIComponent_roundtrip p2) as [_ D2].
  rewrite Heq, D2 in D1. injection D1 as D1.
  symmetry. apply list_ascii_of_string_inj. exact D1.
Qed.

Lemma pool_url_injective_witness :
  "tape1" <> "" /\ "tape1" <> "" /\
  pool_url (pool_cbindData (Some "tape1")) = pool_url (pool_cbindData (Some "tape1")) /\
  "tape1" = "tape1".
Proof.
  split; [discriminate|]. split; [discriminate|]. split; [reflexivity|].
  apply pool_url_injective; [discriminate|discriminate|reflexivity].
Defined.

(** ** Info panel: [updateData] and [clickState] *)

(** [updateData] never throws and never touches the panel when no store is
    passed or the drive is missing from it.  With the drive's record it
    binds that record in every case.  Once the state widget is rendered it
    sets the [info-pointer] class exactly when the record's [state] is
    non-empty, registering the click listener only then; before that
    (items not created, or widget not rendered) it throws a TypeError right
    after binding the record, with no listener or class change. *)
Theorem updateData_binds_record :
  forall w recs p,
  updateData w None p = (p, [], Ok tt) /\
  match findRecord recs (ip_drive p) with
  | None => updateData w (Some recs) p = (p, [], Ok tt)
  | Some r =>
      match updateData w (Some recs) p with
      | (p', effs, out) =>
          ip_drive p' = ip_drive p /\ ip_record p' = Some r /\
          (w = WRendered ->
             out = Ok tt /\ ip_pointer p' = truthy (dev_state r) /\
             (In IOnClick effs <-> truthy (dev_state r) = true)) /\
          (w <> WRendered ->
             effs = [] /\ ip_pointer p' = ip_pointer p /\
             exists msg, out = Throw (TypeError msg))
      end
  end.
Proof.
  intros w recs p. split; [reflexivity|]. unfold updateData.
  destruct (findRecord recs (ip_drive p)) as [r|]; [|reflexivity].
  destruct w.
  - simpl. split; [reflexivity|]. split; [reflexivity|]. split; [discriminate|].
    intros _. split; [reflexivity|]. split; [reflexivity|]. eexists; reflexivity.
  - simpl. split; [reflexivity|]. split; [reflexivity|]. split; [discriminate|].
    intros _. split; [reflexivity|]. split; [reflexivity|]. eexists; reflexivity.
  - destruct (truthy (dev_state r)); simpl;
      (split; [reflexivity|split; [reflexivity|split; [intros _|intros H; exfalso; apply H; reflexivity]]]);
      (split; [reflexivity|split; [reflexivity|]]);
      [tauto|split; [intros [H|[H|[H|[]]]]; discriminate|discriminate]].
Qed.

Lemma updateData_record : forall w recs p r,
  findRecord recs (ip_drive p) = Some r ->
  ip_record (fst (fst (updateData w (Some recs) p))) = Some r.
Proof.
  intros w recs p r Hr. unfold updateData. rewrite Hr.
  destruct w; [reflexivity|reflexivity|destruct (truthy (dev_state r)); reflexivity].
Qed.

(** After [updateData] bound the drive's record (whether or not it then
    threw on the state widget), a click on the state widget's
    right-aligned part opens one TaskViewer for the record's state exactly
    when that state starts with "UPID" (so a non-empty state of another
    form shows the pointer but opens nothing); other clicks, and clicks
    before any record is bound, open nothing. *)
Theorem clickState_opens_upid :
  forall w recs p r,
  findRecord recs (ip_drive p) = Some r ->
  let p' := fst (fst (updateData w (Some recs) p)) in
  (forall u, clickState true p' = [IOpenTaskViewer u] <->
             dev_state r = Some u /\ String.prefix "UPID" u = true) /\
  (clickState true p' = [] \/ exists u, clickState true p' = [IOpenTaskViewer u]) /\
  clickState false p' = [] /\
  (forall d b ra, clickState ra (mkInfo d None b) = []).
Proof.
  intros w recs p r Hr p'.
  assert (Hrec : ip_record p' = Some r) by (apply updateData_record; exact Hr).
  unfold clickState. rewrite Hrec.
  split; [|split; [|split; [reflexivity|intros d b []; reflexivity]]].
  - intros u. destruct (dev_state r) as [s|] eqn:Hs.
    + destruct (String.prefix "UPID" s) eqn:Hp.
      * assert (Ht : truthy (Some s) = true).
        { unfold truthy. destruct (String.eqb_spec s "") as [->|]; [discriminate Hp|reflexivity]. }
        rewrite Ht. simpl. split.
        -- intros H. injection H as <-. split; [reflexivity|exact Hp].
        -- intros [H _]. injection H as <-. reflexivity.
      * rewrite orb_true_r. split; [discriminate|intros [H H']; injection H as <-; congruence].
    + split; [discriminate|intros [H _]; discriminate].
  - destruct (dev_state r) as [s|]; [|left; reflexivity].
    destruct (negb (truthy (Some s)) || negb (String.prefix "UPID" s));
      [left; reflexivity|right; exists s; reflexivity].
Qed.

Lemma clickState_opens_upid_witness :
  findRecord [mkDevice "drv0" (Some "UPID:node:catalog")] (ip_drive (mkInfo "drv0" None false))
    = Some (mkDevice "drv0" (Some "UPID:node:catalog")) /\
  (let p' := fst (fst (updateData WNotCreated (Some [mkDevice "drv0" (Some "UPID:node:catalog")])
                         (mkInfo "drv0" None false))) in
  (forall u, clickState true p' = [IOpenTaskViewer u] <->
             dev_state (mkDevice "drv0" (Some "UPID:node:catalog")) = Some u /\
             String.prefix "UPID" u = true) /\
  (clickState true p' = [] \/ exists u, clickState true p' = [IOpenTaskViewer u]) /\
  clickState false p' = [] /\
  (forall d b ra, clickState ra (mkInfo d None b) = [])).
Proof.
  split; [reflexivity|].
  apply clickState_opens_upid. reflexivity.
Defined.

(** ** Running tasks: opening a task *)


(** ** Drive status controller: further handler properties *)

(** A status load whose status has the [ONLINE] token only sets
    [online = true]: no effect, no exception, the cartridge lookup is not
    reached. *)
Theorem onLoad_online_ok :
  forall st rows,
  has_ref st "statusgrid" = true ->
  In "ONLINE" (split_ws (or_empty (getObjectValue rows "status"))) ->
  onLoad rows st =
  (mkPanel (drive st) (mkVM true (busy (vm st)) (loaded (vm st))) (refs st) (windows st),
   [], Ok tt).
Proof.
  intros st rows Hg Hin.
  assert (Hon : negb (Z.eqb (indexOf (split_ws (or_empty (getObjectValue rows "status"))) "ONLINE")
                  (-1)%Z) = true) by (apply online_token_iff; exact Hin).
  unfold onLoad.
  unfold removeAll, lookup, vm_set_online, set_vm, modify, emit, ret, throw, bind.
  rewrite Hg. simpl. rewrite Hon. reflexivity.
Qed.

Lemma onLoad_online_ok_witness :
  has_ref (init_panel "drv0") "statusgrid" = true /\
  In "ONLINE" (split_ws (or_empty (getObjectValue [("status", "ONLINE WR_PROT")] "status"))) /\
  onLoad [("status", "ONLINE WR_PROT")] (init_panel "drv0") =
  (mkPanel (drive (init_panel "drv0"))
     (mkVM true (busy (vm (init_panel "drv0"))) (loaded (vm (init_panel "drv0"))))
     (refs (init_panel "drv0")) (windows (init_panel "drv0")), [], Ok tt).
Proof.
  split; [reflexivity|]. split; [vm_compute; left; reflexivity|].
  apply onLoad_online_ok; [reflexivity|vm_compute; left; reflexivity].
Defined.

(** Before the latch is set, a snapshot showing the drive busy schedules
    the "Drive is busy" mask of the status grid after 10 ms and nothing
    else; one showing it idle schedules the unmask, reloads the status grid
    at once and sets the latch. *)
Theorem onStateLoad_before_latch :
  forall st store r,
  has_ref st "statusgrid" = true ->
  loaded (vm st) = false ->
  findRecord store (drive st) = Some r ->
  onStateLoad store st =
  if truthy (dev_state r) then
    (mkPanel (drive st) (mkVM (online (vm st)) true false) (refs st) (windows st),
     [ETimeout 10 (Mask (Some "statusgrid") "Drive is busy")], Ok tt)
  else
    (mkPanel (drive st) (mkVM (online (vm st)) false true) (refs st) (windows st),
     [ETimeout 10 (Unmask (Some "statusgrid")); ERstoreLoad "statusgrid"], Ok tt).
Proof.
  intros [d [o b l] rf w] store r Hg Hl Hr. simpl in Hl, Hr. subst l.
  run_m. rewrite Hr. simpl.
  destruct (truthy (dev_state r)); simpl;
    rewrite ?has_ref_set_vm; change (has_ref (mkPanel d (mkVM o b false) rf w) "statusgrid" = true) in Hg;
    unfold has_ref in *; simpl in *; rewrite ?Hg; reflexivity.
Qed.

Lemma onStateLoad_before_latch_witness :
  has_ref (init_panel "drv0") "statusgrid" = true /\
  loaded (vm (init_panel "drv0")) = false /\
  findRecord [mkDevice "drv0" None] (drive (init_panel "drv0")) = Some (mkDevice "drv0" None) /\
  onStateLoad [mkDevice "drv0" None] (init_panel "drv0") =
  (if truthy (dev_state (mkDevice "drv0" None)) then
    (mkPanel (drive (init_panel "drv0")) (mkVM (online (vm (init_panel "drv0"))) true false)
       (refs (init_panel "drv0")) (windows (init_panel "drv0")),
     [ETimeout 10 (Mask (Some "statusgrid") "Drive is busy")], Ok tt)
  else
    (mkPanel (drive (init_panel "drv0")) (mkVM (online (vm (init_panel "drv0"))) false true)
       (refs (init_panel "drv0")) (windows (init_panel "drv0")),
     [ETimeout 10 (Unmask (Some "statusgrid")); ERstoreLoad "statusgrid"], Ok tt)).
Proof.
  split; [reflexivity|]. split; [reflexivity|]. split; [reflexivity|].
  apply onStateLoad_before_latch; reflexivity.
Defined.

(** The same panel with other view-model flags. *)
Definition with_vm (st : panel) (v : viewmodel) : panel :=
  mkPanel (drive st) v (refs st) (windows st).

(** The command handlers do no gating of their own: whatever the [online],
    [busy] and [loaded] flags, each one issues the same request, performs
    the same effects and opens the same windows, and none of them changes
    the flags. *)
Theorem command_handlers_ignore_flags :
  forall st v resp,
  snd (fst (ejectMedia resp (with_vm st v))) = snd (fst (ejectMedia resp st)) /\
  windows (fst (fst (ejectMedia resp (with_vm st v)))) = windows (fst (fst (ejectMedia resp st))) /\
  vm (fst (fst (ejectMedia resp st))) = vm st /\
  snd (fst (catalog resp (with_vm st v))) = snd (fst (catalog resp st)) /\
  windows (fst (fst (catalog resp (with_vm st v)))) = windows (fst (fst (catalog resp st))) /\
  vm (fst (fst (catalog resp st))) = vm st /\
  snd (fst (readLabel resp (with_vm st v))) = snd (fst (readLabel resp st)) /\
  vm (fst (fst (readLabel resp st))) = vm st /\
  snd (fst (volumeStatistics resp (with_vm st v))) = snd (fst (volumeStatistics resp st)) /\
  vm (fst (fst (volumeStatistics resp st))) = vm st /\
  snd (fst (cartridgeMemory resp (with_vm st v))) = snd (fst (cartridgeMemory resp st)) /\
  vm (fst (fst (cartridgeMemory resp st))) = vm st /\
  snd (fst (labelMedia (with_vm st v))) = snd (fst (labelMedia st)) /\
  fst (fst (labelMedia st)) = st.
Proof.
  intros st v [data|msg]; repeat split.
Qed.

(** [catalog], on the task identifier [u] the backend returns, opens one
    TaskViewer watching [u]; its completion event reloads the status grid
    once and leaves the panel as it is; a failed request opens nothing. *)
Theorem catalog_task_handle :
  forall st u,
  has_ref st "statusgrid" = true ->
  catalog (RespOk u) st =
    (mkPanel (drive st) (vm st) (refs st) (windows st ++ [mkTW TaskViewer u CbReload]),
     [ERequest (drive st) "catalog" (Some "POST"); EShowWindow TaskViewer u], Ok tt) /\
  (let st1 := fst (fst (catalog (RespOk u) st)) in
   taskDone (length (windows st)) st1 = (st1, [ERstoreLoad "statusgrid"], Ok tt)) /\
  (forall msg, catalog (RespFail msg) st =
     (st, [ERequest (drive st) "catalog" (Some "POST"); EShowError msg], Ok tt)).
Proof.
  intros st u Hg. split; [reflexivity|]. split; [|intros msg; reflexivity].
  simpl. apply taskDone_reload with (w := mkTW TaskViewer u CbReload).
  - exact Hg.
  - simpl. rewrite nth_error_app2 by lia. rewrite Nat.sub_diag. reflexivity.
  - reflexivity.
Qed.

Lemma catalog_task_handle_witness :
  has_ref (init_panel "drv0") "statusgrid" = true /\
  catalog (RespOk "UPID:node:catalog") (init_panel "drv0") =
    (mkPanel (drive (init_panel "drv0")) (vm (init_panel "drv0")) (refs (init_panel "drv0"))
       (windows (init_panel "drv0") ++ [mkTW TaskViewer "UPID:node:catalog" CbReload]),
     [ERequest (drive (init_panel "drv0")) "catalog" (Some "POST");
      EShowWindow TaskViewer "UPID:node:catalog"], Ok tt) /\
  (let st1 := fst (fst (catalog (RespOk "UPID:node:catalog") (init_panel "drv0"))) in
   taskDone (length (windows (init_panel "drv0"))) st1 = (st1, [ERstoreLoad "statusgrid"], Ok tt)) /\
  (forall msg, catalog (RespFail msg) (init_panel "drv0") =
     (init_panel "drv0", [ERequest (drive (init_panel "drv0")) "catalog" (Some "POST");
                          EShowError msg], Ok tt)).
Proof.
  split; [reflexivity|].
  apply catalog_task_handle. reflexivity.
Defined.

(** The volume-statistics and cartridge-memory commands only send their
    request and show the result (or the error): no task window, no reload,
    and the panel is left as it is. *)
Theorem sync_commands_no_task :
  forall st resp,
  volumeStatistics resp st =
    (st, [ERequest (drive st) "volume-statistics" None;
          match resp with
          | RespOk data => EShowResult "volume-statistics" data
          | RespFail msg => EShowError msg
          end], Ok tt) /\
  cartridgeMemory resp st =
    (st, [ERequest (drive st) "cartridge-memory" None;
          match resp with
          | RespOk data => EShowResult "cartridge-memory" data
          | RespFail msg => EShowError msg
          end], Ok tt).
Proof.
  intros st [data|msg]; split; reflexivity.
Qed.

(** [onStateLoad] keeps the drive and sets [busy] from the snapshot when
    it contains the drive, and leaves [busy] alone when it throws on a
    missing drive. *)
Lemma onStateLoad_busy_step : forall e st,
  match onStateLoad e st with
  | (st1, _, _) =>
      drive st1 = drive st /\
      busy (vm st1) = match findRecord e (drive st) with
                      | Some r => truthy (dev_state r)
                      | None => busy (vm st)
                      end
  end.
Proof.
  intros e st. run_m.
  destruct (findRecord e (drive st)) as [r|]; simpl; [|split; reflexivity].
  destruct (loaded (vm st)), (truthy (dev_state r)); simpl;
    repeat (destruct (has_ref _ _); simpl); split; reflexivity.
Qed.

(** Latest wins: after any sequence of device-store snapshots, [busy] is
    the value from the last snapshot that contains the drive (its initial
    [true] when none does); snapshots without the drive change nothing. *)
Theorem busy_latest_snapshot :
  forall d evs,
  busy (vm (fst (run_state_events evs (init_panel d)))) = last_busy d evs true.
Proof.
  intros d evs. unfold last_busy.
  change true with (busy (vm (init_panel d))).
  change d with (drive (init_panel d)) at 2.
  generalize (init_panel d) as st. clear d.
  induction evs as [|e es IH]; intros st; [reflexivity|].
  rewrite run_state_events_cons. simpl fold_left.
  pose proof (onStateLoad_busy_step e st) as Hs.
  destruct (onStateLoad e st) as [[st1 eff] r]. destruct Hs as [Hd Hb].
  simpl. rewrite IH, Hb, Hd. reflexivity.
Qed.

(** ** Info panel initialization on an already loaded store *)


